(** * disgo-butler: the mod-mail relay (package [mod_mail]) and the shutdown
    path of [butler.StartAndBlock]

  The guild-side listeners of the mod-mail relay are embedded as pure
  functions from the state of the [ModMail] object to its new state and
  the trace of what the listener did (mutex operations, map accesses,
  REST calls, log lines).  The REST client is an oracle record: what a call
  returns is decided by the environment, not by the listener. *)

From stdpp Require Import gmap strings list fin_maps.

(** [snowflake.ID] is a [uint64]; no arithmetic is ever done on it, its zero
  value is [0]. *)
Abbreviation snowflake := N (only parsing).

(** Go's [error], carried as its message. *)
Abbreviation error := string (only parsing).

Module discord.

Record Attachment := {
  AttachmentID : snowflake;
  URL : string;
  Filename : string
}.

(** The fields of [discord.Message] the listeners read. *)
Record Message := {
  ID : snowflake;
  WebhookID : option snowflake;   (* *snowflake.ID, nil = None *)
  Content : string;
  Attachments : list Attachment
}.

End discord.

Module events.

(** [events.GenericGuildMessage], embedded by [GuildMessageCreate],
    [GuildMessageUpdate] and [GuildMessageDelete]: the id of the message
    the event is about, the message itself (the zero message when the
    gateway did not send it and the cache does not hold it) and the
    channel. *)
Record GenericGuildMessage := {
  MessageID : snowflake;
  Message : discord.Message;
  ChannelID : snowflake
}.

(** [events.GuildMemberTypingStart]: only its channel is read. *)
Record GuildMemberTypingStart := {
  TypingChannelID : snowflake
}.

End events.

Module mod_mail.

(** The [ModMail] object: the link map [ThreadDMs] (staff thread channel to
    user DM channel) and the two message maps.  Its mutex [Mu] shows up in
    the traces below. *)
Record ModMail := {
  ThreadDMs : gmap N N;
  dmMessageIDs : gmap N N;
  threadMessageIDs : gmap N N
}.

(** [m.dmMessageIDs[k] = v] *)
Definition set_dmMessageIDs (m : ModMail) (k v : snowflake) : ModMail :=
  {| ThreadDMs := ThreadDMs m;
     dmMessageIDs := <[k := v]> (dmMessageIDs m);
     threadMessageIDs := threadMessageIDs m |}.

(** [delete(m.threadMessageIDs, k)] *)
Definition delete_threadMessageIDs (m : ModMail) (k : snowflake) : ModMail :=
  {| ThreadDMs := ThreadDMs m;
     dmMessageIDs := dmMessageIDs m;
     threadMessageIDs := delete k (threadMessageIDs m) |}.

(** [v := m[k]] without the [ok] result: the zero value when [k] is absent. *)
Definition index (m : gmap N N) (k : snowflake) : snowflake :=
  default 0%N (m !! k).

(** The entries a message map holds under the key [k]. *)
Definition entries_for (k : snowflake) (ids : gmap N N) : list (N * N) :=
  filter (λ kv, kv.1 = k) (map_to_list ids).

(** [generateEmbeds] and [filesFromAttachments] are helpers of the package
    whose bodies are not part of the relay; [discord.Embed] and
    [discord.File] belong to the disgo library.  The listeners only pass
    their results on, so they are an interface the relay is written
    against. *)
Class Helpers := {
  Embed : Type;
  File : Type;
  generateEmbeds : discord.Message -> list Embed;
  filesFromAttachments : list discord.Attachment -> list File
}.

Section Relay.

Context `{Helpers}.

Record MessageCreate := {
  mcEmbeds : list Embed;
  mcFiles : list File
}.

Record MessageUpdate := {
  muEmbeds : option (list Embed);   (* *[]discord.Embed *)
  muFiles : list File
}.

(** [event.Client().Rest()]: each call either yields its result or an
    error. *)
Record Rest := {
  CreateMessage : snowflake -> MessageCreate -> discord.Message + error;
  UpdateMessage : snowflake -> snowflake -> MessageUpdate -> discord.Message + error;
  DeleteMessage : snowflake -> snowflake -> option error;
  SendTyping : snowflake -> option error
}.

(** What a listener does, in program order. *)
Inductive Action :=
| MuLock
| MuUnlock
| LookupThreadDMs (k : snowflake)
| LookupDmMessageIDs (k : snowflake)
| StoreDmMessageIDs (k v : snowflake)
| DeleteThreadMessageIDs (k : snowflake)
| RestCreateMessage (channel : snowflake) (mc : MessageCreate)
| RestUpdateMessage (channel message : snowflake) (mu : MessageUpdate)
| RestDeleteMessage (channel message : snowflake)
| RestSendTyping (channel : snowflake)
| LoggerError (msg : string) (err : error).

Definition is_rest_call (a : Action) : bool :=
  match a with
  | RestCreateMessage _ _ | RestUpdateMessage _ _ _
  | RestDeleteMessage _ _ | RestSendTyping _ => true
  | _ => false
  end.

Definition is_store_op (a : Action) : bool :=
  match a with
  | LookupThreadDMs _ | LookupDmMessageIDs _
  | StoreDmMessageIDs _ _ | DeleteThreadMessageIDs _ => true
  | _ => false
  end.

(** [m.Mu.Lock(); defer m.Mu.Unlock()] around the rest of the body: the
    mutex is taken, the body runs, and whichever [return] ends it the
    deferred unlock runs last. *)
Definition lock_defer_unlock (body : ModMail * list Action) : ModMail * list Action :=
  (body.1, MuLock :: body.2 ++ [MuUnlock]).

(** The [discord.MessageCreate] literal of [guildMessageCreateListener]. *)
Definition messageCreateOf (event : events.GenericGuildMessage) : MessageCreate :=
  {| mcEmbeds := generateEmbeds (events.Message event);
     mcFiles := filesFromAttachments (discord.Attachments (events.Message event)) |}.

(** The [discord.MessageUpdate] literal of [guildMessageUpdateListener]
    ([embeds := generateEmbeds(event.Message)], passed as [&embeds]). *)
Definition messageUpdateOf (event : events.GenericGuildMessage) : MessageUpdate :=
  let embeds := generateEmbeds (events.Message event) in
  {| muEmbeds := Some embeds;
     muFiles := filesFromAttachments (discord.Attachments (events.Message event)) |}.

Definition guildMessageCreateListener
    (rest : Rest) (event : events.GenericGuildMessage) (m : ModMail)
  : ModMail * list Action :=
  match discord.WebhookID (events.Message event) with
  | Some _ => (m, [])
  | None =>
    lock_defer_unlock
      match ThreadDMs m !! events.ChannelID event with
      | None => (m, [LookupThreadDMs (events.ChannelID event)])
      | Some dmID =>
        let messageCreate := messageCreateOf event in
        match CreateMessage rest dmID messageCreate with
        | inr err =>
          (m, [LookupThreadDMs (events.ChannelID event);
               RestCreateMessage dmID messageCreate;
               LoggerError "failed to create dm message: " err])
        | inl message =>
          (set_dmMessageIDs m (discord.ID (events.Message event)) (discord.ID message),
           [LookupThreadDMs (events.ChannelID event);
            RestCreateMessage dmID messageCreate;
            StoreDmMessageIDs (discord.ID (events.Message event)) (discord.ID message)])
        end
      end
  end.

Definition guildMessageUpdateListener
    (rest : Rest) (event : events.GenericGuildMessage) (m : ModMail)
  : ModMail * list Action :=
  lock_defer_unlock
    match dmMessageIDs m !! discord.ID (events.Message event) with
    | None => (m, [LookupDmMessageIDs (discord.ID (events.Message event))])
    | Some dmMessageID =>
      let messageUpdate := messageUpdateOf event in
      let dmChannelID := index (ThreadDMs m) (events.ChannelID event) in
      match UpdateMessage rest dmChannelID dmMessageID messageUpdate with
      | inr err =>
        (m, [LookupDmMessageIDs (discord.ID (events.Message event));
             LookupThreadDMs (events.ChannelID event);
             RestUpdateMessage dmChannelID dmMessageID messageUpdate;
             LoggerError "failed to update dm message: " err])
      | inl _ =>
        (m, [LookupDmMessageIDs (discord.ID (events.Message event));
             LookupThreadDMs (events.ChannelID event);
             RestUpdateMessage dmChannelID dmMessageID messageUpdate])
      end
    end.

Definition guildMessageDeleteListener
    (rest : Rest) (event : events.GenericGuildMessage) (m : ModMail)
  : ModMail * list Action :=
  lock_defer_unlock
    match dmMessageIDs m !! events.MessageID event with
    | None => (m, [LookupDmMessageIDs (events.MessageID event)])
    | Some dmMessageID =>
      let m' := delete_threadMessageIDs m (discord.ID (events.Message event)) in
      let dmChannelID := index (ThreadDMs m') (events.ChannelID event) in
      match DeleteMessage rest dmChannelID dmMessageID with
      | Some err =>
        (m', [LookupDmMessageIDs (events.MessageID event);
              DeleteThreadMessageIDs (discord.ID (events.Message event));
              LookupThreadDMs (events.ChannelID event);
              RestDeleteMessage dmChannelID dmMessageID;
              LoggerError "failed to delete dm message: " err])
      | None =>
        (m', [LookupDmMessageIDs (events.MessageID event);
              DeleteThreadMessageIDs (discord.ID (events.Message event));
              LookupThreadDMs (events.ChannelID event);
              RestDeleteMessage dmChannelID dmMessageID])
      end
    end.

Definition guildMemberTypingStartListener
    (rest : Rest) (event : events.GuildMemberTypingStart) (m : ModMail)
  : ModMail * list Action :=
  lock_defer_unlock
    match ThreadDMs m !! events.TypingChannelID event with
    | None => (m, [LookupThreadDMs (events.TypingChannelID event)])
    | Some dmChannelID =>
      match SendTyping rest dmChannelID with
      | Some err =>
        (m, [LookupThreadDMs (events.TypingChannelID event);
             RestSendTyping dmChannelID;
             LoggerError "failed to send dm typing: " err])
      | None =>
        (m, [LookupThreadDMs (events.TypingChannelID event);
             RestSendTyping dmChannelID])
      end
    end.

(** ** Reading a trace against the mutex *)

(** The REST calls of a trace made while the mutex is held ([held] is
    its state when the trace starts). *)
Fixpoint rest_calls_under_lock (held : bool) (t : list Action) : list Action :=
  match t with
  | [] => []
  | MuLock :: t' => rest_calls_under_lock true t'
  | MuUnlock :: t' => rest_calls_under_lock false t'
  | a :: t' =>
    if held && is_rest_call a
    then a :: rest_calls_under_lock held t'
    else rest_calls_under_lock held t'
  end.

(** The REST calls of a trace made while the mutex is free. *)
Fixpoint rest_calls_outside_lock (held : bool) (t : list Action) : list Action :=
  match t with
  | [] => []
  | MuLock :: t' => rest_calls_outside_lock true t'
  | MuUnlock :: t' => rest_calls_outside_lock false t'
  | a :: t' =>
    if negb held && is_rest_call a
    then a :: rest_calls_outside_lock held t'
    else rest_calls_outside_lock held t'
  end.

(** How often the mutex is acquired. *)
Fixpoint lock_count (t : list Action) : nat :=
  match t with
  | [] => 0
  | MuLock :: t' => S (lock_count t')
  | _ :: t' => lock_count t'
  end.

(** The store operations of the critical sections of a trace, one list
    per critical section, in order. *)
Fixpoint critical_sections (cur : option (list Action)) (t : list Action)
  : list (list Action) :=
  match t with
  | [] => match cur with Some c => [c] | None => [] end
  | MuLock :: t' => critical_sections (Some []) t'
  | MuUnlock :: t' =>
    match cur with
    | Some c => c :: critical_sections None t'
    | None => critical_sections None t'
    end
  | a :: t' =>
    match cur with
    | Some c => critical_sections (Some (c ++ [a])) t'
    | None => critical_sections None t'
    end
  end.

(** The discipline of the specification: every critical section holds
    one store operation and nothing else. *)
Definition single_store_op_sections (t : list Action) : bool :=
  forallb (fun c => match c with
                    | [a] => is_store_op a
                    | _ => false
                    end)
          (critical_sections None t).

(** The discipline the listeners follow: the mutex is taken at most once,
    no REST call is made while it is free, and every REST call of the trace
    is made while it is held. *)
Definition rest_calls_hold_lock (t : list Action) : Prop :=
  lock_count t ≤ 1
  ∧ rest_calls_outside_lock false t = []
  ∧ rest_calls_under_lock false t = List.filter is_rest_call t.

End Relay.

(** The part of [mod_mail.Config] the shutdown path writes: the persisted
    thread map. *)
Record Config := {
  Threads : gmap N N
}.

(** Modelled from the spec: [ModMail.Close] is not among the sources; it is
    the [snapshot()] of the Link Store, which "returns the full set of active
    Links for persistence" and "does not include MessageLinks". *)
Definition Close (m : ModMail) : gmap N N :=
  ThreadDMs m.

End mod_mail.

Module butler.

(** The fields of [butler.Config] that the sources touch. *)
Record Config := {
  Token : string;
  DocsAliases : gmap string string;
  ContributorRepos : gmap string N;
  ConfigModMail : mod_mail.Config     (* Config.ModMail *)
}.

(** The fields of [Butler] that [StartAndBlock] uses; [Client], [DB] and
    [Logger] show up as steps of its trace. *)
Record Butler := {
  ModMail : mod_mail.ModMail;
  BConfig : Config                    (* Butler.Config *)
}.

(** What the outside world answers during [StartAndBlock]. *)
Record World := {
  OpenGateway : option error;
  OpenHTTPServer : option error;
  SaveConfig : Config -> option error
}.

Inductive Step :=
| ClientOpenGateway
| ClientOpenHTTPServer
| LoggerErrorf (format : string) (err : error)
| LoggerInfo (msg : string)
| SignalNotify
| ReceiveSignal                       (* <-s *)
| ClientClose
| DBClose
| ModMailClose
| CallSaveConfig (config : Config).

(** [b.Config.ModMail.Threads = threads] *)
Definition set_Threads (b : Butler) (threads : gmap N N) : Butler :=
  {| ModMail := ModMail b;
     BConfig :=
       {| Token := Token (BConfig b);
          DocsAliases := DocsAliases (BConfig b);
          ContributorRepos := ContributorRepos (BConfig b);
          ConfigModMail := {| mod_mail.Threads := threads |} |} |}.

(** [if err := call; err != nil { b.Logger.Errorf(format, err) }] *)
Definition log_if_error (format : string) (result : option error) : list Step :=
  match result with
  | Some err => [LoggerErrorf format err]
  | None => []
  end.

(** The deferred function of [StartAndBlock]. *)
Definition shutdown (w : World) (b : Butler) : Butler * list Step :=
  let b' := set_Threads b (mod_mail.Close (ModMail b)) in
  (b',
   [LoggerInfo "Shutting down..."; ClientClose; DBClose; ModMailClose;
    CallSaveConfig (BConfig b')]
   ++ log_if_error "Failed to save config: %s" (SaveConfig w (BConfig b'))).

(** [StartAndBlock]: the body runs up to the receive on the signal channel,
    then the deferred function runs and the call returns. *)
Definition StartAndBlock (w : World) (b : Butler) : Butler * list Step :=
  let body :=
    [ClientOpenGateway]
    ++ log_if_error "Failed to connect to gateway: %s" (OpenGateway w)
    ++ [ClientOpenHTTPServer]
    ++ log_if_error "Failed to start http server: %s" (OpenHTTPServer w)
    ++ [LoggerInfo "Client is running. Press CTRL-C to exit.";
        SignalNotify; ReceiveSignal] in
  let deferred := shutdown w b in
  (deferred.1, body ++ deferred.2).

End butler.

(** The Link Store of the specification.  The sources hold the link map
    ([ModMail.ThreadDMs]) and read it; the code that opens and closes a
    conversation is not among them. *)
Module link_store.

(** A Link: [(staffChannelID, userChannelID)]. *)
Abbreviation Link := (N * N)%type (only parsing).

Inductive Direction := StaffToUser | UserToStaff.

Record MessageLink := {
  parent : snowflake;             (* staffChannelID of the Link it belongs to *)
  mirrorMessageID : snowflake;
  direction : Direction
}.

Record LinkStore := {
  links : gmap N N;               (* staffChannelID to userChannelID *)
  messageLinks : gmap N MessageLink  (* keyed by originMessageID *)
}.

Inductive StoreError := ConflictError.

(** [getByUserChannel] answers for exactly the user channels in the image of
    the link map. *)
Definition user_mapped (user : snowflake) (s : LinkStore) : bool :=
  bool_decide (user ∈ (map_to_list (links s)).*2).

Definition staff_mapped (staff : snowflake) (s : LinkStore) : bool :=
  bool_decide (is_Some (links s !! staff)).

(** Modelled from the spec: [put(link)] "inserts a Link; fails with
    [ConflictError] if either endpoint is already mapped". *)
Definition put (l : Link) (s : LinkStore) : LinkStore + StoreError :=
  if staff_mapped l.1 s || user_mapped l.2 s
  then inr ConflictError
  else inl {| links := <[l.1 := l.2]> (links s);
              messageLinks := messageLinks s |}.

(** Does the store hold exactly this link? *)
Definition holds (l : Link) (s : LinkStore) : bool :=
  bool_decide (links s !! l.1 = Some l.2).

(** Modelled from the spec: [remove(link)] "deletes the link and all its
    associated MessageLinks". *)
Definition remove (l : Link) (s : LinkStore) : LinkStore :=
  if holds l s
  then {| links := delete l.1 (links s);
          messageLinks := filter (fun kv => parent kv.2 ≠ l.1) (messageLinks s) |}
  else s.

Inductive Op := Put (l : Link) | Remove (l : Link).

(** One operation; a [put] that fails leaves the store as it was. *)
Definition apply (s : LinkStore) (o : Op) : LinkStore :=
  match o with
  | Put l => match put l s with inl s' => s' | inr _ => s end
  | Remove l => remove l s
  end.

Definition run (ops : list Op) (s : LinkStore) : LinkStore :=
  foldl apply s ops.

Definition empty : LinkStore :=
  {| links := ∅; messageLinks := ∅ |}.

(** The links a store holds, as pairs. *)
Definition active (s : LinkStore) : list Link :=
  map_to_list (links s).

(** No two active links share an endpoint. *)
Definition bijective (s : LinkStore) : Prop :=
  ∀ l1 l2 : Link, l1 ∈ active s → l2 ∈ active s →
    l1.1 = l2.1 ∨ l1.2 = l2.2 → l1 = l2.

End link_store.

(** ** Error lines of [StartAndBlock] *)

Module startup.

Definition is_errorf (s : butler.Step) : bool :=
  match s with
  | butler.LoggerErrorf _ _ => true
  | _ => false
  end.

(** 1 for a call that failed, 0 for one that did not. *)
Definition failed (result : option error) : nat :=
  match result with
  | Some _ => 1
  | None => 0
  end.

End startup.

(** ** Deliveries to the guild-side listeners *)

Module relay.

Section Deliveries.

Import mod_mail.
Context `{Helpers}.

(** A guild-side event of one of the four kinds the listeners take. *)
Inductive GuildEvent :=
| MessageCreated (event : events.GenericGuildMessage)
| MessageUpdated (event : events.GenericGuildMessage)
| MessageDeleted (event : events.GenericGuildMessage)
| TypingStarted (event : events.GuildMemberTypingStart).

(** One event handed to the listener for its kind. *)
Definition deliver (rest : Rest) (e : GuildEvent) (m : ModMail)
  : ModMail * list Action :=
  match e with
  | MessageCreated event => guildMessageCreateListener rest event m
  | MessageUpdated event => guildMessageUpdateListener rest event m
  | MessageDeleted event => guildMessageDeleteListener rest event m
  | TypingStarted event => guildMemberTypingStartListener rest event m
  end.

(** Events handled one after the other, each with the REST client as it
    answers at that time; the state after the last one. *)
Definition deliver_all (deliveries : list (Rest * GuildEvent)) (m : ModMail) : ModMail :=
  foldl (λ m d, (deliver d.1 d.2 m).1) m deliveries.

(** Is the mutex held after the trace, when [held] says whether it was
    before? *)
Fixpoint mutex_held_after (held : bool) (t : list Action) : bool :=
  match t with
  | [] => held
  | MuLock :: t' => mutex_held_after true t'
  | MuUnlock :: t' => mutex_held_after false t'
  | _ :: t' => mutex_held_after held t'
  end.

Definition is_logger_error (a : Action) : bool :=
  match a with
  | LoggerError _ _ => true
  | _ => false
  end.

(** The REST calls and the error lines of a trace. *)
Definition rest_calls (t : list Action) : list Action :=
  List.filter is_rest_call t.

Definition errors_logged (t : list Action) : list Action :=
  List.filter is_logger_error t.

(** What the guild-side listeners leave in place: the link map, every
    entry key of [dmMessageIDs], and no new entry in [threadMessageIDs]. *)
Definition keeps_links_and_entries (m m' : ModMail) : Prop :=
  ThreadDMs m' = ThreadDMs m
  ∧ dom (dmMessageIDs m) ⊆ dom (dmMessageIDs m')
  ∧ threadMessageIDs m' ⊆ threadMessageIDs m.

Definition is_mutex_op (a : Action) : bool :=
  match a with
  | MuLock | MuUnlock => true
  | _ => false
  end.

(** The whole trace is one critical section: its first step takes the
    mutex, its last step releases it, no step between the two touches the
    mutex, and the steps between the two are what the one critical section
    of the trace holds. *)
Definition locked_throughout (t : list Action) : Prop :=
  ∃ body, t = MuLock :: body ++ [MuUnlock]
          ∧ forallb (λ a, negb (is_mutex_op a)) body = true
          ∧ critical_sections None t = [body].

End Deliveries.

End relay.

(** ** The [config] command (package [commands]) *)

Module commands.

(** [butler.GithubReleaseConfig] *)
Record GithubReleaseConfig := {
  WebhookID : snowflake;
  WebhookToken : string;
  PingRole : snowflake
}.

(** The three maps of [butler.Config] the command reads and writes, each as
    Go holds it: the nil map ([None]) or a map. *)
Record Config := {
  Aliases : option (gmap string string);                   (* Config.Docs.Aliases *)
  GithubReleases : option (gmap string GithubReleaseConfig);
  ContributorRepos : option (gmap string N)
}.

(** [_, ok := m[k]], also on the nil map. *)
Definition go_lookup {V} (m : option (gmap string V)) (k : string) : option V :=
  m ≫= (.!! k).

(** [delete(m, k)]: nothing happens on the nil map. *)
Definition go_delete {V} (k : string) (m : option (gmap string V))
  : option (gmap string V) :=
  delete k <$> m.

(** The webhook [CreateWebhook] returns: [webhook.ID()] and
    [webhook.Token]. *)
Record Webhook := {
  ID : snowflake;
  Token : string
}.

(** The three responders of package [common], each with what it is given. *)
Inductive Response :=
| RespondErr (err : error)
| Respondf (format : string) (args : list string)
| RespondErrMessagef (format : string) (args : list string).

(** What the collaborators answer: [butler.SaveConfig], the REST client's
    [CreateWebhook], and the [error] a responder returns. *)
Record World := {
  SaveConfig : Config -> option error;
  CreateWebhook : snowflake -> string -> Webhook + error;
  Respond : Response -> option error
}.

Inductive Action :=
| GoSearch (module : string)            (* go b.DocClient.Search(ctx, module) *)
| CallSaveConfig (config : Config)
| CallCreateWebhook (channel : snowflake) (name : string)
| CallRespond (response : Response).

(** A handler returns its [error], or panics. *)
Inductive Outcome :=
| Returned (err : option error)
| Panicked (reason : string).

Record Result := {
  config : Config;
  trace : list Action;
  outcome : Outcome
}.

Definition set_Aliases (c : Config) (aliases : option (gmap string string)) : Config :=
  {| Aliases := aliases;
     GithubReleases := GithubReleases c;
     ContributorRepos := ContributorRepos c |}.

Definition set_GithubReleases (c : Config)
    (releases : option (gmap string GithubReleaseConfig)) : Config :=
  {| Aliases := Aliases c;
     GithubReleases := releases;
     ContributorRepos := ContributorRepos c |}.

Definition set_ContributorRepos (c : Config) (repos : option (gmap string N)) : Config :=
  {| Aliases := Aliases c;
     GithubReleases := GithubReleases c;
     ContributorRepos := repos |}.

(** The common tail of the handlers that change the config:
    [if err := butler.SaveConfig(b.Config); err != nil { return
    common.RespondErr(e.Respond, err) }; return common.Respondf(...)],
    after the steps [before]. *)
Definition save_and_respond (w : World) (c : Config) (before : list Action)
    (format : string) (args : list string) : Result :=
  match SaveConfig w c with
  | Some err =>
    {| config := c;
       trace := before ++ [CallSaveConfig c; CallRespond (RespondErr err)];
       outcome := Returned (Respond w (RespondErr err)) |}
  | None =>
    {| config := c;
       trace := before ++ [CallSaveConfig c; CallRespond (Respondf format args)];
       outcome := Returned (Respond w (Respondf format args)) |}
  end.

(** [return common.RespondErrMessagef(e.Respond, format, args...)] *)
Definition respond_missing (w : World) (c : Config)
    (format : string) (args : list string) : Result :=
  {| config := c;
     trace := [CallRespond (RespondErrMessagef format args)];
     outcome := Returned (Respond w (RespondErrMessagef format args)) |}.

Definition handleAliasesAdd (w : World) (module alias : string) (c : Config) : Result :=
  match Aliases c with
  | None =>
    (* the assignment to an entry of the nil map panics *)
    {| config := c;
       trace := [GoSearch module];
       outcome := Panicked "assignment to entry in nil map" |}
  | Some aliases =>
    save_and_respond w (set_Aliases c (Some (<[alias := module]> aliases)))
      [GoSearch module]
      "Added alias `%s` for module `%s`." [alias; module]
  end.

Definition handleAliasesRemove (w : World) (alias : string) (c : Config) : Result :=
  match go_lookup (Aliases c) alias with
  | None => respond_missing w c "alias `%s` does not exist" [alias]
  | Some _ =>
    save_and_respond w (set_Aliases c (go_delete alias (Aliases c))) []
      "Removed alias `%s`." [alias]
  end.

Definition handleReleasesAdd (w : World) (name : string)
    (channelID pingRoleID : snowflake) (c : Config) : Result :=
  match CreateWebhook w channelID name with
  | inr err =>
    {| config := c;
       trace := [CallCreateWebhook channelID name; CallRespond (RespondErr err)];
       outcome := Returned (Respond w (RespondErr err)) |}
  | inl webhook =>
    let releases :=
      match GithubReleases c with
      | None => ∅
      | Some releases => releases
      end in
    save_and_respond w
      (set_GithubReleases c
         (Some (<[name := {| WebhookID := ID webhook;
                             WebhookToken := Token webhook;
                             PingRole := pingRoleID |}]> releases)))
      [CallCreateWebhook channelID name]
      "Added release announcement for `%s`." [name]
  end.

Definition handleReleasesRemove (w : World) (name : string) (c : Config) : Result :=
  match go_lookup (GithubReleases c) name with
  | None => respond_missing w c "release `%s` does not exist" [name]
  | Some _ =>
    save_and_respond w (set_GithubReleases c (go_delete name (GithubReleases c))) []
      "Removed release announcement for `%s`." [name]
  end.

Definition handleContributorReposAdd (w : World) (name : string) (roleID : snowflake)
    (c : Config) : Result :=
  let repos :=
    match ContributorRepos c with
    | None => ∅
    | Some repos => repos
    end in
  save_and_respond w (set_ContributorRepos c (Some (<[name := roleID]> repos))) []
    "Added contributor repository `%s`." [name].

Definition handleContributorReposRemove (w : World) (name : string) (c : Config) : Result :=
  match go_lookup (ContributorRepos c) name with
  | None => respond_missing w c "contributor repository `%s` does not exist" [name]
  | Some _ =>
    save_and_respond w (set_ContributorRepos c (go_delete name (ContributorRepos c))) []
      "Removed contributor repository `%s`." [name]
  end.

(** The configs handed to [SaveConfig], in order. *)
Definition saved_configs (t : list Action) : list Config :=
  omap (λ a, match a with CallSaveConfig c => Some c | _ => None end) t.

(** Memory and disk move together: either nothing was handed to
    [SaveConfig] and the config in memory is what it was, or the config in
    memory was handed to [SaveConfig], once. *)
Definition memory_matches_saves (c : Config) (r : Result) : Prop :=
  (saved_configs (trace r) = [] ∧ config r = c)
  ∨ saved_configs (trace r) = [config r].

(** *** The command declaration and its handler table *)

Inductive OptionKind := OptionString | OptionChannel | OptionRole.

Record CommandOption := {
  OptionName : string;
  Kind : OptionKind;
  Required : bool
}.

Record SubCommand := {
  CommandName : string;
  Options : list CommandOption
}.

Record SubCommandGroup := {
  GroupName : string;
  SubCommands : list SubCommand
}.

(** [ConfigCommand.Create.Options], without the descriptions. *)
Definition ConfigCommandOptions : list SubCommandGroup :=
  [ {| GroupName := "aliases";
       SubCommands :=
         [ {| CommandName := "add";
              Options := [ {| OptionName := "module"; Kind := OptionString; Required := true |};
                           {| OptionName := "alias"; Kind := OptionString; Required := true |} ] |};
           {| CommandName := "remove";
              Options := [ {| OptionName := "alias"; Kind := OptionString; Required := true |} ] |};
           {| CommandName := "list"; Options := [] |} ] |};
    {| GroupName := "releases";
       SubCommands :=
         [ {| CommandName := "add";
              Options := [ {| OptionName := "name"; Kind := OptionString; Required := true |};
                           {| OptionName := "channel"; Kind := OptionChannel; Required := true |};
                           {| OptionName := "ping-role"; Kind := OptionRole; Required := true |} ] |};
           {| CommandName := "remove";
              Options := [ {| OptionName := "name"; Kind := OptionString; Required := true |} ] |};
           {| CommandName := "list"; Options := [] |} ] |};
    {| GroupName := "contributor-repos";
       SubCommands :=
         [ {| CommandName := "add";
              Options := [ {| OptionName := "name"; Kind := OptionString; Required := true |};
                           {| OptionName := "role"; Kind := OptionRole; Required := true |} ] |};
           {| CommandName := "remove";
              Options := [ {| OptionName := "name"; Kind := OptionString; Required := true |} ] |};
           {| CommandName := "list"; Options := [] |} ] |} ].

Inductive Handler :=
| HandleAliasesAdd | HandleAliasesRemove | HandleAliasesList
| HandleReleasesAdd | HandleReleasesRemove | HandleReleasesList
| HandleContributorReposAdd | HandleContributorReposRemove | HandleContributorReposList.

(** [ConfigCommand.CommandHandlers], in the order of the literal. *)
Definition CommandHandlers : list (string * Handler) :=
  [ ("aliases/add", HandleAliasesAdd);
    ("aliases/remove", HandleAliasesRemove);
    ("aliases/list", HandleAliasesList);
    ("releases/add", HandleReleasesAdd);
    ("releases/remove", HandleReleasesRemove);
    ("releases/list", HandleReleasesList);
    ("contributor-repos/add", HandleContributorReposAdd);
    ("contributor-repos/remove", HandleContributorReposRemove);
    ("contributor-repos/list", HandleContributorReposList) ].

(** How a handler reads an option: [data.String] or [data.Snowflake]. *)
Inductive Getter := GetString | GetSnowflake.

(** The options each handler reads from the interaction data, in order. *)
Definition options_read (h : Handler) : list (string * Getter) :=
  match h with
  | HandleAliasesAdd => [("module", GetString); ("alias", GetString)]
  | HandleAliasesRemove => [("alias", GetString)]
  | HandleReleasesAdd =>
    [("name", GetString); ("channel", GetSnowflake); ("ping-role", GetSnowflake)]
  | HandleReleasesRemove => [("name", GetString)]
  | HandleContributorReposAdd => [("name", GetString); ("role", GetSnowflake)]
  | HandleContributorReposRemove => [("name", GetString)]
  | HandleAliasesList | HandleReleasesList | HandleContributorReposList => []
  end.

(** The paths the declaration gives rise to: [group/subcommand]. *)
Definition declared_paths (groups : list SubCommandGroup) : list string :=
  g ← groups;
  (λ sub, GroupName g +:+ "/" +:+ CommandName sub) <$> SubCommands g.

(** The subcommand declared under a path. *)
Definition declared_at (groups : list SubCommandGroup) (path : string) : option SubCommand :=
  head (g ← groups;
        filter (λ sub, GroupName g +:+ "/" +:+ CommandName sub = path) (SubCommands g)).

(** Does a getter fit the kind of the option it reads?  A channel and a
    role are given as snowflakes. *)
Definition getter_fits (get : Getter) (kind : OptionKind) : bool :=
  match get, kind with
  | GetString, OptionString => true
  | GetSnowflake, OptionChannel | GetSnowflake, OptionRole => true
  | _, _ => false
  end.

(** A handler agrees with a subcommand when it reads exactly the declared
    options, each declared as required and of a fitting kind. *)
Definition reads_agree (h : Handler) (sub : SubCommand) : bool :=
  bool_decide ((options_read h).*1 = OptionName <$> Options sub)
  && forallb (λ o, Required o) (Options sub)
  && forallb (λ '(get, o), getter_fits get (Kind o))
       (zip (options_read h).*2 (Options sub)).

(** A failed save is reported: when the config in memory was handed to
    [SaveConfig] and that failed, the last step of the handler is to respond
    with the error, and it returns what that responder returns. *)
Definition reports_failed_save (w : World) (r : Result) : Prop :=
  ∀ err, saved_configs (trace r) = [config r] →
         SaveConfig w (config r) = Some err →
         last (trace r) = Some (CallRespond (RespondErr err))
         ∧ outcome r = Returned (Respond w (RespondErr err)).

End commands.

(** * Properties of the relay listeners *)

(** A concrete instance of the helper interface for the examples: an embed
    is the text of the message, a file is the URL of an attachment. *)
Definition text_helpers : mod_mail.Helpers :=
  {| mod_mail.Embed := string;
     mod_mail.File := string;
     mod_mail.generateEmbeds := fun msg => [discord.Content msg];
     mod_mail.filesFromAttachments := fun atts => discord.URL <$> atts |}.

(** A staff message with the given id, not posted by a webhook. *)
Definition staff_message (id : snowflake) (text : string) : discord.Message :=
  {| discord.ID := id; discord.WebhookID := None;
     discord.Content := text; discord.Attachments := [] |}.

(** The event for message [id] (the message itself is known) in [channel]. *)
Definition message_event (channel id : snowflake) (text : string)
  : events.GenericGuildMessage :=
  {| events.MessageID := id;
     events.Message := staff_message id text;
     events.ChannelID := channel |}.

(** A REST client on which every call succeeds; a created or updated
    message gets the id [mirror]. *)
Definition rest_ok (mirror : snowflake) : @mod_mail.Rest text_helpers :=
  {| mod_mail.CreateMessage := fun _ _ => inl (staff_message mirror "");
     mod_mail.UpdateMessage := fun _ _ _ => inl (staff_message mirror "");
     mod_mail.DeleteMessage := fun _ _ => None;
     mod_mail.SendTyping := fun _ => None |}.

(** A REST client on which every call fails. *)
Definition rest_down : @mod_mail.Rest text_helpers :=
  {| mod_mail.CreateMessage := fun _ _ => inr "403 Forbidden";
     mod_mail.UpdateMessage := fun _ _ _ => inr "404 Not Found";
     mod_mail.DeleteMessage := fun _ _ => Some "404 Not Found";
     mod_mail.SendTyping := fun _ => Some "403 Forbidden" |}.

(** One open conversation, thread 100 with DM channel 200, and nothing
    mirrored yet. *)
Definition one_link : mod_mail.ModMail :=
  {| mod_mail.ThreadDMs := {[ 100%N := 200%N ]};
     mod_mail.dmMessageIDs := ∅;
     mod_mail.threadMessageIDs := ∅ |}.

(** The same conversation after staff message 7 was mirrored as DM message
    8, with an entry of [threadMessageIDs] under the key 7 as well. *)
Definition mirrored_both : mod_mail.ModMail :=
  {| mod_mail.ThreadDMs := {[ 100%N := 200%N ]};
     mod_mail.dmMessageIDs := {[ 7%N := 8%N ]};
     mod_mail.threadMessageIDs := {[ 7%N := 9%N ]} |}.

(** Staff message 7 mirrored as DM message 8, and the conversation closed
    since: no link is left for channel 100. *)
Definition link_closed : mod_mail.ModMail :=
  {| mod_mail.ThreadDMs := ∅;
     mod_mail.dmMessageIDs := {[ 7%N := 8%N ]};
     mod_mail.threadMessageIDs := ∅ |}.

(** A message of the relay's own webhook. *)
Definition webhook_event : events.GenericGuildMessage :=
  {| events.MessageID := 9;
     events.Message :=
       {| discord.ID := 9; discord.WebhookID := Some 55%N;
          discord.Content := "hello"; discord.Attachments := [] |};
     events.ChannelID := 100 |}.

(** A butler with two open conversations, and a world in which saving the
    config works. *)
Definition two_threads : butler.Butler :=
  {| butler.ModMail :=
       {| mod_mail.ThreadDMs := {[ 100%N := 200%N; 101%N := 201%N ]};
          mod_mail.dmMessageIDs := {[ 7%N := 8%N ]};
          mod_mail.threadMessageIDs := ∅ |};
     butler.BConfig :=
       {| butler.Token := "token";
          butler.DocsAliases := ∅;
          butler.ContributorRepos := ∅;
          butler.ConfigModMail := {| mod_mail.Threads := ∅ |} |} |}.

Definition calm_world : butler.World :=
  {| butler.OpenGateway := None;
     butler.OpenHTTPServer := None;
     butler.SaveConfig := fun _ => None |}.

(** An edit and a deletion of staff message 7 as the gateway reports them:
    the deletion carries the id only, its message is the zero message. *)
Definition edit_event : events.GenericGuildMessage :=
  message_event 100 7 "edited".

Definition bare_delete_event : events.GenericGuildMessage :=
  {| events.MessageID := 7;
     events.Message :=
       {| discord.ID := 0; discord.WebhookID := None;
          discord.Content := ""; discord.Attachments := [] |};
     events.ChannelID := 100 |}.

Definition typing_event : events.GuildMemberTypingStart :=
  {| events.TypingChannelID := 100 |}.

(** A config with one alias and the two other maps still nil. *)
Definition one_alias : commands.Config :=
  {| commands.Aliases := Some {[ "disgo" := "github.com/disgoorg/disgo" ]};
     commands.GithubReleases := None;
     commands.ContributorRepos := None |}.

(** A config as it is when no alias was ever configured. *)
Definition nil_config : commands.Config :=
  {| commands.Aliases := None;
     commands.GithubReleases := None;
     commands.ContributorRepos := None |}.

Definition world_ok : commands.World :=
  {| commands.SaveConfig := fun _ => None;
     commands.CreateWebhook :=
       fun _ _ => inl {| commands.ID := 900; commands.Token := "secret" |};
     commands.Respond := fun _ => None |}.

(** The disk is full and webhooks cannot be created. *)
Definition world_failing : commands.World :=
  {| commands.SaveConfig := fun _ => Some "no space left on device";
     commands.CreateWebhook := fun _ _ => inr "403 Forbidden";
     commands.Respond := fun _ => None |}.

(** Webhooks can be created, the config cannot be saved. *)
Definition world_readonly : commands.World :=
  {| commands.SaveConfig := fun _ => Some "read-only file system";
     commands.CreateWebhook :=
       fun _ _ => inl {| commands.ID := 900; commands.Token := "secret" |};
     commands.Respond := fun _ => None |}.

(** A world in which neither the gateway nor the HTTP server opens and the
    config cannot be saved. *)
Definition stormy_world : butler.World :=
  {| butler.OpenGateway := Some "dial tcp: timeout";
     butler.OpenHTTPServer := Some "address already in use";
     butler.SaveConfig := fun _ => Some "read-only file system" |}.

Section RelayProperties.

Import mod_mail.
Context `{Helpers}.

Implicit Types (rest : Rest) (event : events.GenericGuildMessage) (m : ModMail).

(** The update listener never writes to the state. *)
Lemma update_state rest event m :
  (guildMessageUpdateListener rest event m).1 = m.
Proof.
  unfold guildMessageUpdateListener, lock_defer_unlock.
  destruct (dmMessageIDs m !! _); [|done].
  cbn zeta. by destruct (UpdateMessage _ _ _ _).
Qed.

(** The state after the delete listener: whatever the REST call answers,
    the only write is the [delete] on [threadMessageIDs], and it only
    happens when the message is known to [dmMessageIDs]. *)
Lemma delete_state rest event m :
  (guildMessageDeleteListener rest event m).1 =
    match dmMessageIDs m !! events.MessageID event with
    | Some _ => delete_threadMessageIDs m (discord.ID (events.Message event))
    | None => m
    end.
Proof.
  unfold guildMessageDeleteListener, lock_defer_unlock.
  destruct (dmMessageIDs m !! _); [|done].
  cbn zeta. by destruct (DeleteMessage _ _ _).
Qed.

(** The state after the create listener. *)
Lemma create_state rest event m :
  (guildMessageCreateListener rest event m).1 =
    match discord.WebhookID (events.Message event),
          ThreadDMs m !! events.ChannelID event with
    | None, Some dmID =>
      match CreateMessage rest dmID (messageCreateOf event) with
      | inl message =>
        set_dmMessageIDs m (discord.ID (events.Message event)) (discord.ID message)
      | inr _ => m
      end
    | _, _ => m
    end.
Proof.
  unfold guildMessageCreateListener, lock_defer_unlock.
  destruct (discord.WebhookID _); [done|].
  destruct (ThreadDMs m !! _); [|done].
  cbn zeta. by destruct (CreateMessage _ _ _).
Qed.



(** C5: when the mirrored create fails, the state is exactly what it was: no
    entry is added to any map. *)
Theorem failed_create_records_nothing rest event m dmID err :
  ThreadDMs m !! events.ChannelID event = Some dmID →
  CreateMessage rest dmID (messageCreateOf event) = inr err →
  (guildMessageCreateListener rest event m).1 = m.
Proof.
  intros Hlink Hfail. rewrite create_state, Hlink, Hfail.
  by destruct (discord.WebhookID _).
Qed.

(** An entry of [dmMessageIDs] that the create listener added is the pair of
    the event's message and the message a successful [CreateMessage]
    returned. *)
Lemma new_entry_was_mirrored rest event m k v :
  dmMessageIDs (guildMessageCreateListener rest event m).1 !! k = Some v →
  dmMessageIDs m !! k = Some v
  ∨ ∃ dmID message,
      ThreadDMs m !! events.ChannelID event = Some dmID
      ∧ CreateMessage rest dmID (messageCreateOf event) = inl message
      ∧ k = discord.ID (events.Message event) ∧ v = discord.ID message.
Proof.
  rewrite create_state.
  destruct (discord.WebhookID _); [by left|].
  destruct (ThreadDMs m !! _) as [dmID|] eqn:Hlink; [|by left].
  destruct (CreateMessage _ _ _) as [message|] eqn:Hcall; [|by left].
  cbn. rewrite lookup_insert. case_decide as Hk.
  - intros [= <-]. right. by exists dmID, message.
  - by left.
Qed.

(** C6: a created message that carries a webhook id is ignored: the
    listener returns at once, the state is what it was and the trace is
    empty (no lock taken, no lookup, no REST call). *)
Theorem webhook_message_ignored rest event m webhookID :
  discord.WebhookID (events.Message event) = Some webhookID →
  guildMessageCreateListener rest event m = (m, []).
Proof.
  intros Hwh. unfold guildMessageCreateListener. by rewrite Hwh.
Qed.

(** C10: an update for a message known to [dmMessageIDs] in a channel that
    has no link is not dropped: [UpdateMessage] is called on channel 0, the
    zero value of the unguarded lookup in [ThreadDMs]. *)
Theorem update_without_link_calls_channel_zero rest event m dmMessageID :
  dmMessageIDs m !! discord.ID (events.Message event) = Some dmMessageID →
  ThreadDMs m !! events.ChannelID event = None →
  RestUpdateMessage 0%N dmMessageID (messageUpdateOf event)
    ∈ (guildMessageUpdateListener rest event m).2.
Proof.
  intros Hdm Hlink.
  unfold guildMessageUpdateListener, lock_defer_unlock, index.
  rewrite Hdm, Hlink. cbn.
  destruct (UpdateMessage _ _ _ _); cbn; set_solver.
Qed.

(** The first of two writes under one key is overwritten: the map holds one
    entry under that key, the second. *)
Lemma entries_for_insert (k v : snowflake) (ids : gmap N N) :
  entries_for k (<[k := v]> ids) = [(k, v)].
Proof.
  unfold entries_for.
  rewrite <- insert_delete_eq.
  assert (Hfresh : delete k ids !! k = None) by apply lookup_delete_eq.
  pose proof (map_to_list_insert (delete k ids) k v Hfresh) as Hperm.
  assert (Hrest : filter (λ kv : N * N, kv.1 = k) (map_to_list (delete k ids)) = []).
  { destruct (filter _ (map_to_list (delete k ids))) as [|[k' v'] others] eqn:Hf; [done|].
    assert (Hin : (k', v') ∈ filter (λ kv : N * N, kv.1 = k) (map_to_list (delete k ids)))
      by (rewrite Hf; left).
    apply list_elem_of_filter in Hin as [Hk Hin]. cbn in Hk. subst k'.
    apply elem_of_map_to_list in Hin. by rewrite lookup_delete_eq in Hin. }
  apply (filter_Permutation (λ kv : N * N, kv.1 = k)) in Hperm.
  rewrite filter_cons_True, Hrest in Hperm by done.
  by apply Permutation_singleton_r in Hperm.
Qed.

(** C2 (as amended): a staff message that is mirrored successfully is
    recorded in one direction: [dmMessageIDs] maps its id to the id of the
    mirror; the listener writes nothing else, so [threadMessageIDs] and the
    link map are what they were. *)
Theorem mirrored_create_records_origin rest event m dmID message :
  discord.WebhookID (events.Message event) = None →
  ThreadDMs m !! events.ChannelID event = Some dmID →
  CreateMessage rest dmID (messageCreateOf event) = inl message →
  let m' := (guildMessageCreateListener rest event m).1 in
  dmMessageIDs m' !! discord.ID (events.Message event) = Some (discord.ID message)
  ∧ (∀ k, k ≠ discord.ID (events.Message event) →
          dmMessageIDs m' !! k = dmMessageIDs m !! k)
  ∧ threadMessageIDs m' = threadMessageIDs m
  ∧ ThreadDMs m' = ThreadDMs m.
Proof.
  intros Hwh Hlink Hcall m'. subst m'.
  rewrite create_state, Hwh, Hlink, Hcall. cbn.
  split; [apply lookup_insert_eq|].
  split; [|done]. intros k Hk. by rewrite lookup_insert_ne.
Qed.

(** C9: the same created message delivered twice and mirrored twice leaves
    one entry under its id in [dmMessageIDs], the mirror of the second
    delivery; the second write adds no entry. *)
Theorem duplicate_create_last_write_wins rest1 rest2 event m dmID message1 message2 :
  discord.WebhookID (events.Message event) = None →
  ThreadDMs m !! events.ChannelID event = Some dmID →
  CreateMessage rest1 dmID (messageCreateOf event) = inl message1 →
  CreateMessage rest2 dmID (messageCreateOf event) = inl message2 →
  let origin := discord.ID (events.Message event) in
  let m1 := (guildMessageCreateListener rest1 event m).1 in
  let m2 := (guildMessageCreateListener rest2 event m1).1 in
  dmMessageIDs m2 !! origin = Some (discord.ID message2)
  ∧ entries_for origin (dmMessageIDs m2) = [(origin, discord.ID message2)]
  ∧ size (dmMessageIDs m2) = size (dmMessageIDs m1)
  ∧ dmMessageIDs m2 = <[origin := discord.ID message2]> (dmMessageIDs m).
Proof.
  intros Hwh Hlink Hcall1 Hcall2 origin m1 m2.
  assert (Hm1 : m1 = set_dmMessageIDs m origin (discord.ID message1)).
  { subst m1. by rewrite create_state, Hwh, Hlink, Hcall1. }
  assert (Hm2 : m2 = set_dmMessageIDs m1 origin (discord.ID message2)).
  { subst m2. rewrite create_state, Hwh.
    replace (ThreadDMs m1) with (ThreadDMs m) by (by rewrite Hm1).
    by rewrite Hlink, Hcall2. }
  rewrite Hm2, Hm1. cbn.
  split; [apply lookup_insert_eq|].
  split; [apply entries_for_insert|].
  split; [|apply insert_insert_eq].
  rewrite map_size_insert_Some; [done|]. by rewrite lookup_insert_eq.
Qed.

(** The delete listener never writes to [dmMessageIDs]. *)
Lemma delete_keeps_dmMessageIDs rest event m :
  dmMessageIDs (guildMessageDeleteListener rest event m).1 = dmMessageIDs m.
Proof.
  rewrite delete_state. by destruct (dmMessageIDs m !! _).
Qed.

(** The traces of the four listeners against the mutex. *)
Lemma create_trace_lock rest event m :
  rest_calls_hold_lock (guildMessageCreateListener rest event m).2.
Proof.
  unfold guildMessageCreateListener, lock_defer_unlock, rest_calls_hold_lock.
  destruct (discord.WebhookID _); [cbn; auto|].
  destruct (ThreadDMs m !! _); [|cbn; auto].
  cbn zeta. destruct (CreateMessage _ _ _); cbn; auto.
Qed.

Lemma update_trace_lock rest event m :
  rest_calls_hold_lock (guildMessageUpdateListener rest event m).2.
Proof.
  unfold guildMessageUpdateListener, lock_defer_unlock, rest_calls_hold_lock.
  destruct (dmMessageIDs m !! _); [|cbn; auto].
  cbn zeta. destruct (UpdateMessage _ _ _ _); cbn; auto.
Qed.

Lemma delete_trace_lock rest event m :
  rest_calls_hold_lock (guildMessageDeleteListener rest event m).2.
Proof.
  unfold guildMessageDeleteListener, lock_defer_unlock, rest_calls_hold_lock.
  destruct (dmMessageIDs m !! _); [|cbn; auto].
  cbn zeta. destruct (DeleteMessage _ _ _); cbn; auto.
Qed.

Lemma typing_trace_lock rest (typing : events.GuildMemberTypingStart) m :
  rest_calls_hold_lock (guildMemberTypingStartListener rest typing m).2.
Proof.
  unfold guildMemberTypingStartListener, lock_defer_unlock, rest_calls_hold_lock.
  destruct (ThreadDMs m !! _); [|cbn; auto].
  destruct (SendTyping _ _); cbn; auto.
Qed.

(** The one critical section of a body run under the deferred unlock. *)
Lemma critical_sections_body (acc body : list Action) :
  forallb (λ a, negb (relay.is_mutex_op a)) body = true →
  critical_sections (Some acc) (body ++ [MuUnlock]) = [acc ++ body].
Proof.
  revert acc. induction body as [|a body IH]; intros acc Hfree.
  - cbn. by rewrite app_nil_r.
  - cbn in Hfree. apply andb_prop in Hfree as [Ha Hfree].
    destruct a; try discriminate Ha; cbn;
      rewrite IH by done; by rewrite <- app_assoc.
Qed.

Lemma lock_defer_unlock_locked (m' : ModMail) (body : list Action) :
  forallb (λ a, negb (relay.is_mutex_op a)) body = true →
  relay.locked_throughout (lock_defer_unlock (m', body)).2.
Proof.
  intros Hfree. exists body. split; [done|]. split; [done|].
  cbn. by rewrite critical_sections_body.
Qed.

Lemma create_trace_locked rest event m :
  discord.WebhookID (events.Message event) = None →
  relay.locked_throughout (guildMessageCreateListener rest event m).2.
Proof.
  intros Hwh. unfold guildMessageCreateListener. rewrite Hwh.
  destruct (ThreadDMs m !! _); [|by apply lock_defer_unlock_locked].
  cbn zeta. destruct (CreateMessage _ _ _); by apply lock_defer_unlock_locked.
Qed.

Lemma update_trace_locked rest event m :
  relay.locked_throughout (guildMessageUpdateListener rest event m).2.
Proof.
  unfold guildMessageUpdateListener.
  destruct (dmMessageIDs m !! _); [|by apply lock_defer_unlock_locked].
  cbn zeta. destruct (UpdateMessage _ _ _ _); by apply lock_defer_unlock_locked.
Qed.

Lemma delete_trace_locked rest event m :
  relay.locked_throughout (guildMessageDeleteListener rest event m).2.
Proof.
  unfold guildMessageDeleteListener.
  destruct (dmMessageIDs m !! _); [|by apply lock_defer_unlock_locked].
  cbn zeta. destruct (DeleteMessage _ _ _); by apply lock_defer_unlock_locked.
Qed.

Lemma typing_trace_locked rest (typing : events.GuildMemberTypingStart) m :
  relay.locked_throughout (guildMemberTypingStartListener rest typing m).2.
Proof.
  unfold guildMemberTypingStartListener.
  destruct (ThreadDMs m !! _); [|by apply lock_defer_unlock_locked].
  destruct (SendTyping _ _); by apply lock_defer_unlock_locked.
Qed.

(** C4 (as amended): each listener takes the mutex as its first step (the
    create listener after its webhook check: for a webhook message it
    returns without taking it) and releases it as its last step, and does
    not touch it in between: the lookups, the REST call, the store and the
    error line all lie in that one critical section.  So the REST call is
    made while the mutex is held, none is made while it is free, and the
    mutex is taken at most once. *)
Theorem rest_call_inside_critical_section
    rest event (typing : events.GuildMemberTypingStart) m :
  match discord.WebhookID (events.Message event) with
  | Some _ => (guildMessageCreateListener rest event m).2 = []
  | None => relay.locked_throughout (guildMessageCreateListener rest event m).2
  end
  ∧ relay.locked_throughout (guildMessageUpdateListener rest event m).2
  ∧ relay.locked_throughout (guildMessageDeleteListener rest event m).2
  ∧ relay.locked_throughout (guildMemberTypingStartListener rest typing m).2
  ∧ rest_calls_hold_lock (guildMessageCreateListener rest event m).2
  ∧ rest_calls_hold_lock (guildMessageUpdateListener rest event m).2
  ∧ rest_calls_hold_lock (guildMessageDeleteListener rest event m).2
  ∧ rest_calls_hold_lock (guildMemberTypingStartListener rest typing m).2.
Proof.
  split.
  { destruct (discord.WebhookID _) eqn:Hwh.
    - unfold guildMessageCreateListener. by rewrite Hwh.
    - by apply create_trace_locked. }
  split; [apply update_trace_locked|].
  split; [apply delete_trace_locked|].
  split; [apply typing_trace_locked|].
  split; [apply create_trace_lock|].
  split; [apply update_trace_lock|].
  split; [apply delete_trace_lock|apply typing_trace_lock].
Qed.

End RelayProperties.

(** ** The listeners on concrete events *)

Section RelayExamples.

Import mod_mail.

(** The condition on [threadMessageIDs] is needed for the delete: were a
    delete event to carry the deleted message 7, with an entry of
    [threadMessageIDs] under 7, that entry would go although the mirrored
    delete failed. *)
Lemma failed_delete_changes_state :
  dmMessageIDs mirrored_both !! 7%N = Some 8%N
  ∧ DeleteMessage rest_down 200%N 8%N = Some "404 Not Found"
  ∧ threadMessageIDs mirrored_both !! 7%N = Some 9%N
  ∧ threadMessageIDs
      (guildMessageDeleteListener rest_down (message_event 100 7 "hello") mirrored_both).1
      !! 7%N = None
  ∧ (guildMessageDeleteListener rest_down (message_event 100 7 "hello") mirrored_both).1
    ≠ mirrored_both.
Proof.
  repeat split; try reflexivity.
  intros Heq. apply (f_equal (λ m, threadMessageIDs m !! 7%N)) in Heq.
  vm_compute in Heq. discriminate.
Qed.


(** C2, the claim as stated fails: staff message 7 is mirrored as DM
    message 8; the mapping resolves from 7, and neither message map has an
    entry under the mirror id 8. *)
Lemma mirror_id_does_not_resolve :
  CreateMessage (rest_ok 8) 200%N (messageCreateOf (message_event 100 7 "hello"))
    = inl (staff_message 8 "")
  ∧ dmMessageIDs
      (guildMessageCreateListener (rest_ok 8) (message_event 100 7 "hello") one_link).1
      !! 7%N = Some 8%N
  ∧ dmMessageIDs
      (guildMessageCreateListener (rest_ok 8) (message_event 100 7 "hello") one_link).1
      !! 8%N = None
  ∧ threadMessageIDs
      (guildMessageCreateListener (rest_ok 8) (message_event 100 7 "hello") one_link).1
      !! 8%N = None.
Proof. repeat split; reflexivity. Qed.

Lemma mirrored_create_records_origin_witness :
  dmMessageIDs
    (guildMessageCreateListener (rest_ok 8) (message_event 100 7 "hello") one_link).1
    !! 7%N = Some 8%N
  ∧ threadMessageIDs
      (guildMessageCreateListener (rest_ok 8) (message_event 100 7 "hello") one_link).1
    = threadMessageIDs one_link.
Proof.
  destruct (mirrored_create_records_origin (rest_ok 8) (message_event 100 7 "hello")
              one_link 200%N (staff_message 8 ""))
    as (Horigin & _ & Hthread & _); [reflexivity..|].
  exact (conj Horigin Hthread).
Defined.

(** C3, at a delete for a mirrored message: staff message 7 was mirrored as
    DM message 8 by the create listener; when 7 is deleted the listener
    calls [DeleteMessage] for the mirror, and afterwards [dmMessageIDs]
    still maps 7 to 8. *)
Theorem delete_leaves_message_link :
  dmMessageIDs
    (guildMessageCreateListener (rest_ok 8) (message_event 100 7 "hello") one_link).1
    !! 7%N = Some 8%N
  ∧ RestDeleteMessage 200%N 8%N
    ∈ (guildMessageDeleteListener (rest_ok 8) (message_event 100 7 "hello")
         (guildMessageCreateListener (rest_ok 8) (message_event 100 7 "hello") one_link).1).2
  ∧ dmMessageIDs
      (guildMessageDeleteListener (rest_ok 8) (message_event 100 7 "hello")
         (guildMessageCreateListener (rest_ok 8) (message_event 100 7 "hello") one_link).1).1
      !! 7%N = Some 8%N.
Proof.
  split; [reflexivity|]. split; [|reflexivity].
  vm_compute. set_solver.
Qed.

(** C4, the claim as stated fails: the create listener makes its REST call
    between taking the mutex and releasing it, in one critical section
    that holds the lookup, the call and the store. *)
Lemma create_calls_rest_under_lock :
  (guildMessageCreateListener (rest_ok 8) (message_event 100 7 "hello") one_link).2
    = [MuLock; LookupThreadDMs 100;
       RestCreateMessage 200 (messageCreateOf (message_event 100 7 "hello"));
       StoreDmMessageIDs 7 8; MuUnlock]
  ∧ rest_calls_under_lock false
      (guildMessageCreateListener (rest_ok 8) (message_event 100 7 "hello") one_link).2
    = [RestCreateMessage 200 (messageCreateOf (message_event 100 7 "hello"))]
  ∧ single_store_op_sections
      (guildMessageCreateListener (rest_ok 8) (message_event 100 7 "hello") one_link).2
    = false
  ∧ lock_count
      (guildMessageCreateListener (rest_ok 8) (message_event 100 7 "hello") one_link).2
    = 1.
Proof. repeat split; reflexivity. Qed.

Lemma failed_create_records_nothing_witness :
  (guildMessageCreateListener rest_down (message_event 100 7 "hello") one_link).1
    = one_link.
Proof.
  apply (failed_create_records_nothing rest_down (message_event 100 7 "hello")
           one_link 200%N "403 Forbidden"); reflexivity.
Defined.

Lemma webhook_message_ignored_witness :
  guildMessageCreateListener (rest_ok 8) webhook_event one_link = (one_link, []).
Proof.
  apply (webhook_message_ignored (rest_ok 8) webhook_event one_link 55%N).
  reflexivity.
Defined.

Lemma duplicate_create_last_write_wins_witness :
  dmMessageIDs
    (guildMessageCreateListener (rest_ok 12) (message_event 100 7 "hello")
       (guildMessageCreateListener (rest_ok 8) (message_event 100 7 "hello") one_link).1).1
    !! 7%N = Some 12%N
  ∧ entries_for 7
      (dmMessageIDs
         (guildMessageCreateListener (rest_ok 12) (message_event 100 7 "hello")
            (guildMessageCreateListener (rest_ok 8) (message_event 100 7 "hello")
               one_link).1).1)
    = [(7%N, 12%N)].
Proof.
  destruct (duplicate_create_last_write_wins (rest_ok 8) (rest_ok 12)
              (message_event 100 7 "hello") one_link 200%N
              (staff_message 8 "") (staff_message 12 ""))
    as (Hlast & Hone & _); [reflexivity..|].
  exact (conj Hlast Hone).
Defined.

Lemma update_without_link_calls_channel_zero_witness :
  RestUpdateMessage 0%N 8%N (messageUpdateOf (message_event 100 7 "edited"))
    ∈ (guildMessageUpdateListener (rest_ok 8) (message_event 100 7 "edited") link_closed).2.
Proof.
  apply (update_without_link_calls_channel_zero (rest_ok 8)
           (message_event 100 7 "edited") link_closed 8%N); reflexivity.
Defined.

End RelayExamples.

(** * Shutdown *)

Section Shutdown.

Import butler.

(** The body of [StartAndBlock] ends with the receive on the signal
    channel. *)
Lemma shutdown_trace w b :
  (StartAndBlock w b).2 =
    ([ClientOpenGateway]
     ++ log_if_error "Failed to connect to gateway: %s" (OpenGateway w)
     ++ [ClientOpenHTTPServer]
     ++ log_if_error "Failed to start http server: %s" (OpenHTTPServer w)
     ++ [LoggerInfo "Client is running. Press CTRL-C to exit.";
         SignalNotify; ReceiveSignal]
     ++ [LoggerInfo "Shutting down..."; ClientClose; DBClose; ModMailClose])
    ++ CallSaveConfig (BConfig (StartAndBlock w b).1)
    :: log_if_error "Failed to save config: %s"
         (SaveConfig w (BConfig (StartAndBlock w b).1)).
Proof.
  unfold StartAndBlock, shutdown. cbn [fst snd].
  by rewrite <- !app_assoc.
Qed.

(** C7: when [StartAndBlock] returns, after the signal was received, it has
    called [SaveConfig] with a config whose thread map is the link map of
    the relay at that moment: every open link is in what is saved, and
    nothing else is. *)
Theorem shutdown_saves_open_links w b :
  ∃ before after saved,
    (StartAndBlock w b).2 = before ++ CallSaveConfig saved :: after
    ∧ ReceiveSignal ∈ before
    ∧ saved = BConfig (StartAndBlock w b).1
    ∧ mod_mail.Threads (ConfigModMail saved) = mod_mail.Close (ModMail b)
    ∧ ∀ staff user,
        mod_mail.ThreadDMs (ModMail b) !! staff = Some user
        ↔ mod_mail.Threads (ConfigModMail saved) !! staff = Some user.
Proof.
  eexists _, _, _. split; [apply shutdown_trace|].
  split; [|done].
  rewrite !elem_of_app, !elem_of_cons. tauto.
Qed.

End Shutdown.

(** * The Link Store *)

Section LinkStore.

Import link_store.

Implicit Types (s : LinkStore) (l : Link).

Lemma active_lookup s l : l ∈ active s ↔ links s !! l.1 = Some l.2.
Proof. destruct l as [staff user]. apply elem_of_map_to_list. Qed.

Lemma user_mapped_spec user s :
  user_mapped user s = true ↔ ∃ staff, links s !! staff = Some user.
Proof.
  unfold user_mapped. rewrite bool_decide_eq_true, list_elem_of_fmap. split.
  - intros ([staff user'] & -> & Hin). exists staff. by apply elem_of_map_to_list.
  - intros [staff Hin]. exists (staff, user). split; [done|].
    by apply elem_of_map_to_list.
Qed.

Lemma empty_bijective : bijective empty.
Proof.
  intros l1 l2 Hin. apply active_lookup in Hin. cbn in Hin.
  by rewrite lookup_empty in Hin.
Qed.

(** A [put] that succeeds keeps the endpoints apart. *)
Lemma put_bijective l s s' : bijective s → put l s = inl s' → bijective s'.
Proof.
  intros Hbij. unfold put.
  destruct (staff_mapped l.1 s) eqn:Hstaff; [done|].
  destruct (user_mapped l.2 s) eqn:Huser; [done|].
  cbn. intros [= <-] l1 l2 Hl1 Hl2 Hshare.
  apply active_lookup in Hl1, Hl2. cbn in Hl1, Hl2.
  assert (Hfree : ∀ staff, links s !! staff ≠ Some l.2).
  { intros staff Hin. apply not_true_iff_false in Huser. apply Huser.
    apply user_mapped_spec. by exists staff. }
  rewrite lookup_insert in Hl1, Hl2.
  destruct l1 as [staff1 user1], l2 as [staff2 user2]. cbn in *.
  repeat case_decide; simplify_eq.
  - done.
  - destruct Hshare as [?| ->]; [done|]. by destruct (Hfree staff1).
  - destruct Hshare as [?| <-]; [done|]. by destruct (Hfree staff2).
  - apply (Hbij (staff1, user1) (staff2, user2)); [by apply active_lookup..|done].
Qed.

Lemma remove_bijective l s : bijective s → bijective (remove l s).
Proof.
  intros Hbij. unfold remove. destruct (holds l s); [|done].
  intros l1 l2 Hl1 Hl2 Hshare.
  apply active_lookup in Hl1, Hl2. cbn in Hl1, Hl2.
  apply lookup_delete_Some in Hl1 as [_ Hl1], Hl2 as [_ Hl2].
  apply Hbij; [by apply active_lookup..|done].
Qed.

Lemma apply_bijective s o : bijective s → bijective (apply s o).
Proof.
  intros Hbij. destruct o as [l|l]; cbn.
  - destruct (put l s) as [s'|] eqn:Hput; [|done]. by eapply put_bijective.
  - by apply remove_bijective.
Qed.

(** C8: whatever sequence of [put] and [remove] runs on a store in which no
    two links share an endpoint, no two links of the resulting store share
    a [staffChannelID] or a [userChannelID]. *)
Theorem put_remove_keep_bijection ops s :
  bijective s → bijective (run ops s).
Proof.
  revert s. induction ops as [|o ops IH]; intros s Hbij; [done|].
  cbn. apply IH. by apply apply_bijective.
Qed.

Lemma put_remove_keep_bijection_witness :
  bijective (run [Put (100, 200); Put (100, 201); Put (101, 200);
                  Remove (100, 200); Put (101, 200)]%N empty)
  ∧ links (run [Put (100, 200); Put (100, 201); Put (101, 200);
                Remove (100, 200); Put (101, 200)]%N empty)
    = {[ 101%N := 200%N ]}.
Proof.
  split; [|by vm_compute].
  apply (put_remove_keep_bijection
           [Put (100, 200); Put (100, 201); Put (101, 200);
            Remove (100, 200); Put (101, 200)]%N empty).
  exact empty_bijective.
Defined.

End LinkStore.

(** * More on the relay listeners *)

Section RelayDeliveries.

Import mod_mail relay.
Context `{Helpers}.

Implicit Types (rest : Rest) (event : events.GenericGuildMessage) (m : ModMail)
  (e : GuildEvent).

(** X1: Events that do not belong to a conversation are dropped after one
    lookup: an update or a delete of a message [dmMessageIDs] does not know,
    and a message created in a channel without a link.  No REST call is
    made, nothing is logged and the state is what it was. *)
Theorem foreign_events_dropped rest event m :
  (dmMessageIDs m !! discord.ID (events.Message event) = None →
   guildMessageUpdateListener rest event m
   = (m, [MuLock; LookupDmMessageIDs (discord.ID (events.Message event)); MuUnlock]))
  ∧ (dmMessageIDs m !! events.MessageID event = None →
     guildMessageDeleteListener rest event m
     = (m, [MuLock; LookupDmMessageIDs (events.MessageID event); MuUnlock]))
  ∧ (discord.WebhookID (events.Message event) = None →
     ThreadDMs m !! events.ChannelID event = None →
     guildMessageCreateListener rest event m
     = (m, [MuLock; LookupThreadDMs (events.ChannelID event); MuUnlock])).
Proof.
  split; [|split].
  - intros Hdm. unfold guildMessageUpdateListener. by rewrite Hdm.
  - intros Hdm. unfold guildMessageDeleteListener. by rewrite Hdm.
  - intros Hwh Hlink. unfold guildMessageCreateListener. by rewrite Hwh, Hlink.
Qed.

(** The typing listener never writes to the state. *)
Lemma typing_state rest (typing : events.GuildMemberTypingStart) m :
  (guildMemberTypingStartListener rest typing m).1 = m.
Proof.
  unfold guildMemberTypingStartListener, lock_defer_unlock.
  destruct (ThreadDMs m !! _) as [dmChannelID|]; [|done].
  by destruct (SendTyping rest dmChannelID).
Qed.

(** X2: The typing listener never writes to the state, and its REST calls are
    one [SendTyping] on the DM channel of the thread when the channel has
    a link, and none when it has not. *)
Theorem typing_relayed_to_dm rest (typing : events.GuildMemberTypingStart) m :
  (guildMemberTypingStartListener rest typing m).1 = m
  ∧ rest_calls (guildMemberTypingStartListener rest typing m).2
    = match ThreadDMs m !! events.TypingChannelID typing with
      | Some dmChannelID => [RestSendTyping dmChannelID]
      | None => []
      end.
Proof.
  unfold guildMemberTypingStartListener, lock_defer_unlock.
  destruct (ThreadDMs m !! _) as [dmChannelID|]; [|done].
  by destruct (SendTyping rest dmChannelID).
Qed.

(** X3: Create, then update: once a staff message was mirrored, an update of
    that message in the same channel calls [UpdateMessage] on the DM channel
    of the link for the mirror the create recorded. *)
Theorem update_after_create_reaches_mirror
    rest1 rest2 (created edited : events.GenericGuildMessage) m dmID message :
  discord.WebhookID (events.Message created) = None →
  ThreadDMs m !! events.ChannelID created = Some dmID →
  CreateMessage rest1 dmID (messageCreateOf created) = inl message →
  discord.ID (events.Message edited) = discord.ID (events.Message created) →
  events.ChannelID edited = events.ChannelID created →
  RestUpdateMessage dmID (discord.ID message) (messageUpdateOf edited)
    ∈ (guildMessageUpdateListener rest2 edited
         (guildMessageCreateListener rest1 created m).1).2.
Proof.
  intros Hwh Hlink Hcall Hid Hch.
  rewrite create_state, Hwh, Hlink, Hcall.
  unfold guildMessageUpdateListener, lock_defer_unlock, index. cbn.
  rewrite Hid, Hch, lookup_insert_eq, Hlink. cbn.
  destruct (UpdateMessage _ _ _ _); cbn; set_solver.
Qed.

(** X4: Create, then delete: once a staff message was mirrored, the deletion of
    that message in the same channel calls [DeleteMessage] on the DM channel
    for the mirror; the listener goes by [event.MessageID], so this holds
    whether or not the event carries the deleted message. *)
Theorem delete_after_create_reaches_mirror
    rest1 rest2 (created deleted : events.GenericGuildMessage) m dmID message :
  discord.WebhookID (events.Message created) = None →
  ThreadDMs m !! events.ChannelID created = Some dmID →
  CreateMessage rest1 dmID (messageCreateOf created) = inl message →
  events.MessageID deleted = discord.ID (events.Message created) →
  events.ChannelID deleted = events.ChannelID created →
  RestDeleteMessage dmID (discord.ID message)
    ∈ (guildMessageDeleteListener rest2 deleted
         (guildMessageCreateListener rest1 created m).1).2.
Proof.
  intros Hwh Hlink Hcall Hid Hch.
  rewrite create_state, Hwh, Hlink, Hcall.
  unfold guildMessageDeleteListener, lock_defer_unlock, index. cbn.
  rewrite Hid, Hch, lookup_insert_eq, Hlink. cbn.
  destruct (DeleteMessage _ _ _); cbn; set_solver.
Qed.

(** X5: A deletion that is delivered again is carried out again: the first
    delivery leaves the entry of [dmMessageIDs], so the second one calls
    [DeleteMessage] for the same mirror on the same channel, and leaves the
    state of the first. *)
Theorem redelivered_delete_calls_again rest1 rest2 event m dmMessageID :
  dmMessageIDs m !! events.MessageID event = Some dmMessageID →
  RestDeleteMessage (index (ThreadDMs m) (events.ChannelID event)) dmMessageID
    ∈ (guildMessageDeleteListener rest2 event
         (guildMessageDeleteListener rest1 event m).1).2
  ∧ (guildMessageDeleteListener rest2 event
       (guildMessageDeleteListener rest1 event m).1).1
    = (guildMessageDeleteListener rest1 event m).1.
Proof.
  intros Hdm. rewrite (delete_state rest1), Hdm. split.
  - unfold guildMessageDeleteListener, lock_defer_unlock. cbn.
    rewrite Hdm. cbn. destruct (DeleteMessage _ _ _); cbn; set_solver.
  - rewrite delete_state. cbn. rewrite Hdm.
    unfold delete_threadMessageIDs. cbn. f_equal. apply delete_delete_eq.
Qed.

Lemma keeps_refl m : keeps_links_and_entries m m.
Proof. by repeat split. Qed.

Lemma keeps_trans m1 m2 m3 :
  keeps_links_and_entries m1 m2 → keeps_links_and_entries m2 m3 →
  keeps_links_and_entries m1 m3.
Proof.
  intros (Hl1 & Hd1 & Ht1) (Hl2 & Hd2 & Ht2). repeat split.
  - congruence.
  - set_solver.
  - by etrans.
Qed.

Lemma deliver_keeps rest e m : keeps_links_and_entries m (deliver rest e m).1.
Proof.
  destruct e as [event|event|event|typing]; cbn [deliver].
  - rewrite create_state.
    destruct (discord.WebhookID _); [apply keeps_refl|].
    destruct (ThreadDMs m !! _); [|apply keeps_refl].
    destruct (CreateMessage _ _ _); [|apply keeps_refl].
    split; [done|]. split; [|done]. cbn. rewrite dom_insert_L. set_solver.
  - rewrite update_state. apply keeps_refl.
  - rewrite delete_state.
    destruct (dmMessageIDs m !! _); [|apply keeps_refl].
    split; [done|]. split; [done|]. cbn. apply delete_subseteq.
  - rewrite typing_state. apply keeps_refl.
Qed.

(** X6: Whatever guild-side events are handled, in whatever order and whatever
    the REST client answers, the link map is never written, no entry of
    [dmMessageIDs] is ever removed, and [threadMessageIDs] never gains an
    entry. *)
Theorem listeners_keep_links_and_entries (deliveries : list (Rest * GuildEvent)) m :
  keeps_links_and_entries m (deliver_all deliveries m).
Proof.
  revert m. induction deliveries as [|[rest e] deliveries IH]; intros m.
  - apply keeps_refl.
  - cbn. eapply keeps_trans; [apply deliver_keeps|apply IH].
Qed.

(** X7: A listener makes at most one REST call for an event (a failed call is
    not tried again) and logs an error only for a call it made. *)
Theorem one_rest_call_per_event rest e m :
  length (rest_calls (deliver rest e m).2) ≤ 1
  ∧ length (errors_logged (deliver rest e m).2)
    ≤ length (rest_calls (deliver rest e m).2).
Proof.
  destruct e as [event|event|event|typing]; cbn [deliver].
  - unfold guildMessageCreateListener, lock_defer_unlock.
    destruct (discord.WebhookID _); [cbn; lia|].
    destruct (ThreadDMs m !! _); [|cbn; lia].
    cbn zeta. destruct (CreateMessage _ _ _); cbn; lia.
  - unfold guildMessageUpdateListener, lock_defer_unlock.
    destruct (dmMessageIDs m !! _); [|cbn; lia].
    cbn zeta. destruct (UpdateMessage _ _ _ _); cbn; lia.
  - unfold guildMessageDeleteListener, lock_defer_unlock.
    destruct (dmMessageIDs m !! _); [|cbn; lia].
    cbn zeta. destruct (DeleteMessage _ _ _); cbn; lia.
  - unfold guildMemberTypingStartListener, lock_defer_unlock.
    destruct (ThreadDMs m !! _); [|cbn; lia].
    destruct (SendTyping _ _); cbn; lia.
Qed.

(** Whatever the body did, after the deferred unlock the mutex is free. *)
Lemma released_after_unlock (body : list Action) held :
  mutex_held_after held (body ++ [MuUnlock]) = false.
Proof.
  revert held. induction body as [|a body IH]; intros held; [done|].
  destruct a; cbn; apply IH.
Qed.

(** X8: Error or not, a listener that took the mutex has released it when it
    returns: its trace is empty (the mutex was never taken), or its first
    step takes the mutex, the deferred unlock is its last step and no step
    between the two touches the mutex; either way the mutex is free after
    the trace. *)
Theorem mutex_released_on_return rest e m :
  ((deliver rest e m).2 = [] ∨ locked_throughout (deliver rest e m).2)
  ∧ mutex_held_after false (deliver rest e m).2 = false.
Proof.
  assert (Hlocked : (deliver rest e m).2 = []
                    ∨ locked_throughout (deliver rest e m).2).
  { destruct e as [event|event|event|typing]; cbn [deliver].
    - destruct (discord.WebhookID (events.Message event)) eqn:Hwh.
      + left. unfold guildMessageCreateListener. by rewrite Hwh.
      + right. by apply create_trace_locked.
    - right. apply update_trace_locked.
    - right. apply delete_trace_locked.
    - right. apply typing_trace_locked. }
  split; [done|].
  destruct Hlocked as [->|(body & -> & _)]; [done|].
  cbn. apply released_after_unlock.
Qed.

End RelayDeliveries.

Section RelayDeliveryExamples.

Import mod_mail relay.

Lemma foreign_events_dropped_witness :
  guildMessageUpdateListener rest_down edit_event one_link
    = (one_link, [MuLock; LookupDmMessageIDs 7; MuUnlock])
  ∧ guildMessageDeleteListener rest_down bare_delete_event one_link
    = (one_link, [MuLock; LookupDmMessageIDs 7; MuUnlock])
  ∧ guildMessageCreateListener rest_down (message_event 100 7 "hello") link_closed
    = (link_closed, [MuLock; LookupThreadDMs 100; MuUnlock]).
Proof.
  split; [|split].
  - apply (foreign_events_dropped rest_down edit_event one_link). reflexivity.
  - apply (foreign_events_dropped rest_down bare_delete_event one_link). reflexivity.
  - apply (foreign_events_dropped rest_down (message_event 100 7 "hello") link_closed);
      reflexivity.
Defined.

Lemma update_after_create_reaches_mirror_witness :
  RestUpdateMessage 200%N 8%N (messageUpdateOf edit_event)
    ∈ (guildMessageUpdateListener rest_down edit_event
         (guildMessageCreateListener (rest_ok 8) (message_event 100 7 "hello")
            one_link).1).2.
Proof.
  apply (update_after_create_reaches_mirror (rest_ok 8) rest_down
           (message_event 100 7 "hello") edit_event one_link 200%N (staff_message 8 ""));
    reflexivity.
Defined.

Lemma delete_after_create_reaches_mirror_witness :
  RestDeleteMessage 200%N 8%N
    ∈ (guildMessageDeleteListener (rest_ok 8) bare_delete_event
         (guildMessageCreateListener (rest_ok 8) (message_event 100 7 "hello")
            one_link).1).2.
Proof.
  apply (delete_after_create_reaches_mirror (rest_ok 8) (rest_ok 8)
           (message_event 100 7 "hello") bare_delete_event one_link 200%N
           (staff_message 8 ""));
    reflexivity.
Defined.

Lemma redelivered_delete_calls_again_witness :
  RestDeleteMessage 200%N 8%N
    ∈ (guildMessageDeleteListener rest_down bare_delete_event
         (guildMessageDeleteListener (rest_ok 8) bare_delete_event mirrored_both).1).2.
Proof.
  apply (redelivered_delete_calls_again (rest_ok 8) rest_down bare_delete_event
           mirrored_both 8%N).
  reflexivity.
Defined.

End RelayDeliveryExamples.

(** * Startup *)

Section Startup.

Import butler startup.

(** X9: A gateway or an HTTP server that does not open does not stop
    [StartAndBlock]: both are tried, the signal is awaited and the config is
    saved at shutdown all the same; each of the three calls that fails is
    logged once, and nothing else is logged as an error. *)
Theorem startup_failures_not_fatal w b :
  ClientOpenGateway ∈ (StartAndBlock w b).2
  ∧ ClientOpenHTTPServer ∈ (StartAndBlock w b).2
  ∧ ReceiveSignal ∈ (StartAndBlock w b).2
  ∧ CallSaveConfig (BConfig (StartAndBlock w b).1) ∈ (StartAndBlock w b).2
  ∧ length (List.filter is_errorf (StartAndBlock w b).2)
    = failed (OpenGateway w) + failed (OpenHTTPServer w)
      + failed (SaveConfig w (BConfig (StartAndBlock w b).1)).
Proof.
  unfold StartAndBlock, shutdown. cbn [fst snd].
  destruct (OpenGateway w), (OpenHTTPServer w), (SaveConfig w _); cbn;
    repeat split; set_solver.
Qed.

End Startup.

(** * The [config] command *)

Section ConfigCommand.

Import commands.

Implicit Types (w : World) (c : Config).

Lemma save_and_respond_config w c before format args :
  config (save_and_respond w c before format args) = c.
Proof. unfold save_and_respond. by destruct (SaveConfig w c). Qed.

Lemma save_and_respond_saves w c before format args :
  saved_configs before = [] →
  saved_configs (trace (save_and_respond w c before format args)) = [c].
Proof.
  intros Hbefore. unfold save_and_respond, saved_configs in *.
  destruct (SaveConfig w c); cbn; by rewrite omap_app, Hbefore.
Qed.

Lemma save_and_respond_matches w c0 c before format args :
  saved_configs before = [] →
  memory_matches_saves c0 (save_and_respond w c before format args).
Proof.
  intros Hbefore. right.
  by rewrite save_and_respond_saves, save_and_respond_config.
Qed.

(** X10: Memory and disk move together in the six handlers that change the
    config: a handler that hands nothing to [SaveConfig] has left the config
    in memory as it was, and otherwise [SaveConfig] was called once, with
    the very config that is in memory when the handler returns. *)
Theorem saves_follow_memory w c (module alias name : string)
    (channelID pingRoleID roleID : snowflake) :
  memory_matches_saves c (handleAliasesAdd w module alias c)
  ∧ memory_matches_saves c (handleAliasesRemove w alias c)
  ∧ memory_matches_saves c (handleReleasesAdd w name channelID pingRoleID c)
  ∧ memory_matches_saves c (handleReleasesRemove w name c)
  ∧ memory_matches_saves c (handleContributorReposAdd w name roleID c)
  ∧ memory_matches_saves c (handleContributorReposRemove w name c).
Proof.
  repeat apply conj.
  - unfold handleAliasesAdd. destruct (Aliases c); [|by left].
    by apply save_and_respond_matches.
  - unfold handleAliasesRemove. destruct (go_lookup _ _); [|by left].
    by apply save_and_respond_matches.
  - unfold handleReleasesAdd. destruct (CreateWebhook _ _ _); [|by left].
    by apply save_and_respond_matches.
  - unfold handleReleasesRemove. destruct (go_lookup _ _); [|by left].
    by apply save_and_respond_matches.
  - by apply save_and_respond_matches.
  - unfold handleContributorReposRemove. destruct (go_lookup _ _); [|by left].
    by apply save_and_respond_matches.
Qed.

(** X11: A change is not taken back when it cannot be saved: the config in
    memory after a handler does not depend on what [SaveConfig] answers
    (for [handleReleasesAdd], given the same answer of [CreateWebhook]). *)
Theorem failed_save_keeps_change w w' c (module alias name : string)
    (channelID pingRoleID roleID : snowflake) :
  (∀ channel webhookName,
     CreateWebhook w channel webhookName = CreateWebhook w' channel webhookName) →
  config (handleAliasesAdd w module alias c) = config (handleAliasesAdd w' module alias c)
  ∧ config (handleAliasesRemove w alias c) = config (handleAliasesRemove w' alias c)
  ∧ config (handleReleasesAdd w name channelID pingRoleID c)
    = config (handleReleasesAdd w' name channelID pingRoleID c)
  ∧ config (handleReleasesRemove w name c) = config (handleReleasesRemove w' name c)
  ∧ config (handleContributorReposAdd w name roleID c)
    = config (handleContributorReposAdd w' name roleID c)
  ∧ config (handleContributorReposRemove w name c)
    = config (handleContributorReposRemove w' name c).
Proof.
  intros Hwebhook. repeat apply conj.
  - unfold handleAliasesAdd. destruct (Aliases c); [|done].
    by rewrite !save_and_respond_config.
  - unfold handleAliasesRemove. destruct (go_lookup _ _); [|done].
    by rewrite !save_and_respond_config.
  - unfold handleReleasesAdd. rewrite <- Hwebhook.
    destruct (CreateWebhook _ _ _); [|done].
    by rewrite !save_and_respond_config.
  - unfold handleReleasesRemove. destruct (go_lookup _ _); [|done].
    by rewrite !save_and_respond_config.
  - unfold handleContributorReposAdd. by rewrite !save_and_respond_config.
  - unfold handleContributorReposRemove. destruct (go_lookup _ _); [|done].
    by rewrite !save_and_respond_config.
Qed.

Lemma save_and_respond_reports w c before format args :
  reports_failed_save w (save_and_respond w c before format args).
Proof.
  intros err _. rewrite save_and_respond_config. intros Hfail.
  unfold save_and_respond. rewrite Hfail. cbn. split; [|done].
  by rewrite last_app.
Qed.

(** X12: A save that fails is never passed over: in each of the six handlers,
    when [SaveConfig] fails the last step is to respond with its error, not
    with the message of success, and the handler returns what that
    responder returns. *)
Theorem failed_save_is_reported w c (module alias name : string)
    (channelID pingRoleID roleID : snowflake) :
  reports_failed_save w (handleAliasesAdd w module alias c)
  ∧ reports_failed_save w (handleAliasesRemove w alias c)
  ∧ reports_failed_save w (handleReleasesAdd w name channelID pingRoleID c)
  ∧ reports_failed_save w (handleReleasesRemove w name c)
  ∧ reports_failed_save w (handleContributorReposAdd w name roleID c)
  ∧ reports_failed_save w (handleContributorReposRemove w name c).
Proof.
  repeat apply conj.
  - unfold handleAliasesAdd. destruct (Aliases c); [|by intros err].
    apply save_and_respond_reports.
  - unfold handleAliasesRemove. destruct (go_lookup _ _); [|by intros err].
    apply save_and_respond_reports.
  - unfold handleReleasesAdd. destruct (CreateWebhook _ _ _); [|by intros err'].
    apply save_and_respond_reports.
  - unfold handleReleasesRemove. destruct (go_lookup _ _); [|by intros err].
    apply save_and_respond_reports.
  - apply save_and_respond_reports.
  - unfold handleContributorReposRemove. destruct (go_lookup _ _); [|by intros err].
    apply save_and_respond_reports.
Qed.

(** X13: Removing a name that is not configured (also from a map that is still
    nil) changes nothing and saves nothing: the handler only responds with
    its "does not exist" message. *)
Theorem remove_of_missing_name w c (name : string) :
  (go_lookup (Aliases c) name = None →
   config (handleAliasesRemove w name c) = c
   ∧ trace (handleAliasesRemove w name c)
     = [CallRespond (RespondErrMessagef "alias `%s` does not exist" [name])])
  ∧ (go_lookup (GithubReleases c) name = None →
     config (handleReleasesRemove w name c) = c
     ∧ trace (handleReleasesRemove w name c)
       = [CallRespond (RespondErrMessagef "release `%s` does not exist" [name])])
  ∧ (go_lookup (ContributorRepos c) name = None →
     config (handleContributorReposRemove w name c) = c
     ∧ trace (handleContributorReposRemove w name c)
       = [CallRespond
            (RespondErrMessagef "contributor repository `%s` does not exist" [name])]).
Proof.
  repeat apply conj.
  - intros Hmissing. unfold handleAliasesRemove. by rewrite Hmissing.
  - intros Hmissing. unfold handleReleasesRemove. by rewrite Hmissing.
  - intros Hmissing. unfold handleContributorReposRemove. by rewrite Hmissing.
Qed.

(** X14: An alias that is added resolves to its module, and removing it again
    gives back the config from before, when the alias was new. *)
Theorem alias_add_remove_round_trip w w' c (module alias : string)
    (aliases : gmap string string) :
  Aliases c = Some aliases →
  aliases !! alias = None →
  go_lookup (Aliases (config (handleAliasesAdd w module alias c))) alias = Some module
  ∧ config (handleAliasesRemove w' alias (config (handleAliasesAdd w module alias c))) = c.
Proof.
  intros Hmap Hnew. unfold handleAliasesAdd. rewrite Hmap.
  rewrite save_and_respond_config. cbn. rewrite lookup_insert_eq. split; [done|].
  unfold handleAliasesRemove. cbn. rewrite lookup_insert_eq.
  rewrite save_and_respond_config. cbn.
  rewrite delete_insert_eq, delete_id by done.
  destruct c. cbn in *. by subst.
Qed.

(** X15: The three add handlers on a map that is still nil: [handleAliasesAdd]
    assigns into the nil map and panics, without saving or responding;
    [handleContributorReposAdd] and [handleReleasesAdd] make the map first
    and end with the one new entry. *)
Theorem add_to_nil_map w c (module alias name : string)
    (channelID pingRoleID roleID : snowflake) (webhook : Webhook) :
  (Aliases c = None →
   outcome (handleAliasesAdd w module alias c) = Panicked "assignment to entry in nil map"
   ∧ config (handleAliasesAdd w module alias c) = c
   ∧ trace (handleAliasesAdd w module alias c) = [GoSearch module])
  ∧ (ContributorRepos c = None →
     ContributorRepos (config (handleContributorReposAdd w name roleID c))
     = Some {[ name := roleID ]})
  ∧ (GithubReleases c = None →
     CreateWebhook w channelID name = inl webhook →
     GithubReleases (config (handleReleasesAdd w name channelID pingRoleID c))
     = Some {[ name := {| WebhookID := ID webhook;
                          WebhookToken := Token webhook;
                          PingRole := pingRoleID |} ]}).
Proof.
  repeat apply conj.
  - intros Hnil. unfold handleAliasesAdd. by rewrite Hnil.
  - intros Hnil. unfold handleContributorReposAdd.
    by rewrite save_and_respond_config, Hnil.
  - intros Hnil Hwebhook. unfold handleReleasesAdd.
    by rewrite Hwebhook, save_and_respond_config, Hnil.
Qed.

(** X16: [handleReleasesAdd] creates the webhook first.  When that fails the
    config is what it was and nothing is saved; when it succeeds the name
    is bound to the new webhook and the ping role, whether or not it was
    bound before, and every other release is what it was. *)
Theorem release_add_binds_new_webhook w c (name : string)
    (channelID pingRoleID : snowflake) :
  match CreateWebhook w channelID name with
  | inr err =>
    config (handleReleasesAdd w name channelID pingRoleID c) = c
    ∧ trace (handleReleasesAdd w name channelID pingRoleID c)
      = [CallCreateWebhook channelID name; CallRespond (RespondErr err)]
  | inl webhook =>
    go_lookup (GithubReleases (config (handleReleasesAdd w name channelID pingRoleID c)))
      name
    = Some {| WebhookID := ID webhook; WebhookToken := Token webhook;
              PingRole := pingRoleID |}
    ∧ ∀ other, other ≠ name →
        go_lookup
          (GithubReleases (config (handleReleasesAdd w name channelID pingRoleID c)))
          other
        = go_lookup (GithubReleases c) other
  end.
Proof.
  unfold handleReleasesAdd.
  destruct (CreateWebhook w channelID name) as [webhook|err]; [|done].
  rewrite save_and_respond_config. cbn. rewrite lookup_insert_eq. split; [done|].
  intros other Hother. rewrite lookup_insert_ne by done.
  by destruct (GithubReleases c).
Qed.

(** X17: Adding a contributor repository and removing it again leaves every
    name resolving as before, when the name was new; after these two steps
    a map that was nil is an empty map, no longer nil. *)
Theorem contributor_add_remove_round_trip w w' c (name : string) (roleID : snowflake) :
  go_lookup (ContributorRepos c) name = None →
  let added := config (handleContributorReposAdd w name roleID c) in
  let removed := config (handleContributorReposRemove w' name added) in
  go_lookup (ContributorRepos added) name = Some roleID
  ∧ (∀ other, go_lookup (ContributorRepos removed) other
              = go_lookup (ContributorRepos c) other)
  ∧ (ContributorRepos c = None → ContributorRepos removed = Some ∅).
Proof.
  intros Hnew added removed. subst removed added.
  unfold handleContributorReposAdd. rewrite save_and_respond_config. cbn.
  rewrite lookup_insert_eq. split; [done|].
  unfold handleContributorReposRemove. cbn. rewrite lookup_insert_eq.
  rewrite save_and_respond_config. cbn. rewrite delete_insert_eq. split.
  - intros other. destruct (ContributorRepos c) as [repos|]; cbn in *.
    + by rewrite delete_id.
    + by rewrite delete_empty.
  - intros ->. by rewrite delete_empty.
Qed.

(** X18: The handler table and the declaration of the command agree: the paths
    of the table are the declared [group/subcommand] paths, each once, and
    the handler under a path reads exactly the options its subcommand
    declares, all of them required and of the kind the handler reads. *)
Theorem handlers_match_declaration :
  CommandHandlers.*1 = declared_paths ConfigCommandOptions
  ∧ NoDup CommandHandlers.*1
  ∧ Forall (λ entry,
       ∃ sub, declared_at ConfigCommandOptions entry.1 = Some sub
              ∧ reads_agree entry.2 sub = true)
      CommandHandlers.
Proof.
  split; [by vm_compute|]. split.
  - apply (bool_decide_unpack _). by vm_compute.
  - repeat constructor; eexists; (split; [by vm_compute|by vm_compute]).
Qed.

End ConfigCommand.

Section ConfigCommandExamples.

Import commands.

Lemma failed_save_keeps_change_witness :
  config (handleAliasesAdd world_readonly "github.com/disgoorg/snowflake" "snowflake" one_alias)
    = config (handleAliasesAdd world_ok "github.com/disgoorg/snowflake" "snowflake" one_alias)
  ∧ go_lookup
      (Aliases (config (handleAliasesAdd world_readonly "github.com/disgoorg/snowflake"
                          "snowflake" one_alias)))
      "snowflake"
    = Some "github.com/disgoorg/snowflake".
Proof.
  split; [|by vm_compute].
  apply (failed_save_keeps_change world_readonly world_ok one_alias
           "github.com/disgoorg/snowflake" "snowflake" "disgo" 1%N 2%N 3%N).
  reflexivity.
Defined.

Lemma failed_save_is_reported_witness :
  last (trace (handleAliasesRemove world_readonly "disgo" one_alias))
    = Some (CallRespond (RespondErr "read-only file system"))
  ∧ go_lookup (Aliases (config (handleAliasesRemove world_readonly "disgo" one_alias)))
      "disgo"
    = None.
Proof.
  split; [|by vm_compute].
  apply (failed_save_is_reported world_readonly one_alias "" "disgo" "" 1%N 2%N 3%N);
    reflexivity.
Defined.

Lemma remove_of_missing_name_witness :
  config (handleAliasesRemove world_ok "snowflake" one_alias) = one_alias
  ∧ config (handleReleasesRemove world_ok "disgo" nil_config) = nil_config.
Proof.
  split.
  - apply (remove_of_missing_name world_ok one_alias "snowflake"). reflexivity.
  - apply (remove_of_missing_name world_ok nil_config "disgo"). reflexivity.
Defined.

Lemma alias_add_remove_round_trip_witness :
  config (handleAliasesRemove world_failing "snowflake"
            (config (handleAliasesAdd world_ok "github.com/disgoorg/snowflake"
                       "snowflake" one_alias)))
  = one_alias.
Proof.
  apply (alias_add_remove_round_trip world_ok world_failing one_alias
           "github.com/disgoorg/snowflake" "snowflake"
           {[ "disgo" := "github.com/disgoorg/disgo" ]}); reflexivity.
Defined.

Lemma add_to_nil_map_witness :
  outcome (handleAliasesAdd world_ok "github.com/disgoorg/disgo" "disgo" nil_config)
    = Panicked "assignment to entry in nil map"
  ∧ ContributorRepos (config (handleContributorReposAdd world_ok "disgo" 5 nil_config))
    = Some {[ "disgo" := 5%N ]}.
Proof.
  split.
  - apply (add_to_nil_map world_ok nil_config "github.com/disgoorg/disgo" "disgo"
             "disgo" 1%N 2%N 5%N {| ID := 900; Token := "secret" |}).
    reflexivity.
  - apply (add_to_nil_map world_ok nil_config "github.com/disgoorg/disgo" "disgo"
             "disgo" 1%N 2%N 5%N {| ID := 900; Token := "secret" |}).
    reflexivity.
Defined.

Lemma contributor_add_remove_round_trip_witness :
  ContributorRepos
    (config (handleContributorReposRemove world_ok "disgo"
               (config (handleContributorReposAdd world_ok "disgo" 5 nil_config))))
  = Some ∅.
Proof.
  apply (contributor_add_remove_round_trip world_ok world_ok nil_config "disgo" 5%N);
    reflexivity.
Defined.

End ConfigCommandExamples.
